(** * Verification of the Snowflake ID generator and the dictionary option store
      of the air-cargo platform backend
      (app/utils/snowflake.py, app/api/config.py). *)

From Stdlib Require Import ZArith List Lia Bool String Ascii Sorted Permutation.
Import ListNotations.
Open Scope Z_scope.

(** ** The Snowflake generator (app/utils/snowflake.py) *)
Module Snowflake.

(** Class constants of [SnowflakeGenerator]. *)
Definition EPOCH : Z := 1704067200000.
Definition TIMESTAMP_BITS : Z := 41.
Definition DATACENTER_ID_BITS : Z := 5.
Definition MACHINE_ID_BITS : Z := 5.
Definition SEQUENCE_BITS : Z := 12.
Definition MAX_DATACENTER_ID : Z := Z.shiftl 1 DATACENTER_ID_BITS - 1.
Definition MAX_MACHINE_ID : Z := Z.shiftl 1 MACHINE_ID_BITS - 1.
Definition MAX_SEQUENCE : Z := Z.shiftl 1 SEQUENCE_BITS - 1.
Definition MACHINE_ID_SHIFT : Z := SEQUENCE_BITS.
Definition DATACENTER_ID_SHIFT : Z := SEQUENCE_BITS + MACHINE_ID_BITS.
Definition TIMESTAMP_SHIFT : Z := SEQUENCE_BITS + MACHINE_ID_BITS + DATACENTER_ID_BITS.

(** The mutable fields of one generator instance (the lock is not modelled:
    calls are sequential). *)
Record SnowflakeGenerator := mkGen {
  datacenter_id : Z;
  machine_id : Z;
  sequence : Z;
  last_timestamp : Z
}.

(** Python exceptions raised by the module. *)
Inductive py_error := ValueError | RuntimeError.

Inductive result (A : Type) := Ok (a : A) | Err (e : py_error).
Arguments Ok {A} a.
Arguments Err {A} e.

(** [__init__]: range checks, then [sequence = 0], [last_timestamp = -1]. *)
Definition init (datacenter_id machine_id : Z) : result SnowflakeGenerator :=
  if (datacenter_id >? MAX_DATACENTER_ID) || (datacenter_id <? 0) then Err ValueError
  else if (machine_id >? MAX_MACHINE_ID) || (machine_id <? 0) then Err ValueError
  else Ok (mkGen datacenter_id machine_id 0 (-1)).

(** The wall clock is the list of the successive values that
    [_current_timestamp] returns; an exhausted list means that no further
    reading happens within the observation. *)
Definition clock := list Z.

(** [_wait_next_millis]: poll until a reading exceeds [last_timestamp];
    [None] when the observed readings never do. *)
Fixpoint _wait_next_millis (last_timestamp : Z) (clk : clock) : option (Z * clock) :=
  match clk with
  | [] => None
  | t :: rest =>
      if t <=? last_timestamp then _wait_next_millis last_timestamp rest
      else Some (t, rest)
  end.

(** Outcome of one call of [generate_id]: an identifier, an exception (the
    instance keeps its state), or a call still spinning when the observed
    readings run out. *)
Inductive outcome :=
  | Returned (id_value : Z) (g : SnowflakeGenerator) (rest : clock)
  | Raised (e : py_error) (g : SnowflakeGenerator) (rest : clock)
  | Spinning (g : SnowflakeGenerator).

(** The expression that builds [id_value]. *)
Definition assemble (g : SnowflakeGenerator) (timestamp sequence : Z) : Z :=
  Z.lor (Z.lor (Z.lor (Z.shiftl (timestamp - EPOCH) TIMESTAMP_SHIFT)
                      (Z.shiftl (datacenter_id g) DATACENTER_ID_SHIFT))
               (Z.shiftl (machine_id g) MACHINE_ID_SHIFT))
        sequence.

Definition generate_id (g : SnowflakeGenerator) (clk : clock) : outcome :=
  match clk with
  | [] => Spinning g
  | timestamp :: rest =>
      if timestamp <? last_timestamp g then Raised RuntimeError g rest
      else if timestamp =? last_timestamp g then
        let seq := Z.land (sequence g + 1) MAX_SEQUENCE in
        let g1 := mkGen (datacenter_id g) (machine_id g) seq (last_timestamp g) in
        if seq =? 0 then
          match _wait_next_millis (last_timestamp g) rest with
          | None => Spinning g1
          | Some (timestamp', rest') =>
              let g2 := mkGen (datacenter_id g) (machine_id g) seq timestamp' in
              Returned (assemble g2 timestamp' seq) g2 rest'
          end
        else
          let g2 := mkGen (datacenter_id g) (machine_id g) seq timestamp in
          Returned (assemble g2 timestamp seq) g2 rest
      else
        let g2 := mkGen (datacenter_id g) (machine_id g) 0 timestamp in
        Returned (assemble g2 timestamp 0) g2 rest
  end.

(** [n] sequential calls on one instance; the identifiers returned before
    the first call that raises or never returns. *)
Fixpoint run (n : nat) (g : SnowflakeGenerator) (clk : clock) : list Z :=
  match n with
  | O => []
  | S n' =>
      match generate_id g clk with
      | Returned i g' clk' => i :: run n' g' clk'
      | _ => []
      end
  end.

(** The identifier layout of the spec, written with its literal constants. *)
Definition id_formula (t region_id worker_id sequence : Z) : Z :=
  Z.lor (Z.lor (Z.lor (Z.shiftl (t - EPOCH) 22) (Z.shiftl region_id 17))
               (Z.shiftl worker_id 12))
        sequence.

(** An identifier read as an unsigned 64-bit integer. *)
Definition u64 (x : Z) : Z := x mod 2 ^ 64.

(** The 10 node bits of an identifier. *)
Definition node_field (x : Z) : Z := Z.land (Z.shiftr x 12) 1023.

(** Invariant of a constructed instance. *)
Definition inv (g : SnowflakeGenerator) : Prop :=
  0 <= datacenter_id g <= 31 /\ 0 <= machine_id g <= 31 /\ 0 <= sequence g <= 4095.

Definition key (g : SnowflakeGenerator) : Z :=
  assemble g (last_timestamp g) (sequence g).

(** Clock readings between the epoch and the end of the 41-bit timestamp
    range: the identifiers then fit in 63 bits. *)
Definition in_window (t : Z) : Prop := EPOCH <= t < EPOCH + 2 ^ 41.

End Snowflake.


(** ** Python strings and [int()]

    A Python [str] is its sequence of code points.  [int()] on a [str]
    depends on data of the running interpreter: the Unicode database
    (which characters are whitespace, which are decimal digits) and the
    integer string conversion limit; they are the fields of [runtime]. *)
Module Py.

Definition pystr := list Z.

(** The code points of an ASCII literal. *)
Definition of_ascii (s : string) : pystr :=
  map (fun c => Z.of_nat (nat_of_ascii c)) (list_ascii_of_string s).

Fixpoint pystr_eqb (a b : pystr) : bool :=
  match a, b with
  | [], [] => true
  | x :: a', y :: b' => (x =? y) && pystr_eqb a' b'
  | _, _ => false
  end.

(** [Py_UNICODE_ISSPACE], [Py_UNICODE_TODECIMAL] (0..9, or none) and
    [sys.get_int_max_str_digits()] (0: no limit). *)
Record runtime := mkRuntime {
  u_isspace : Z -> bool;
  u_todecimal : Z -> option Z;
  int_max_str_digits : Z
}.

(** [Py_ISSPACE] on a byte: space, \t, \n, \v, \f, \r. *)
Definition ascii_space (c : Z) : bool := (c =? 32) || ((9 <=? c) && (c <=? 13)).

(** [_PyUnicode_TransformDecimalAndSpaceToASCII]: ASCII characters are
    kept, other whitespace becomes a space, other decimal digits become
    their ASCII digit; any other character ends the buffer with ['?'],
    which no integer literal contains ([None]). *)
Fixpoint to_ascii (rt : runtime) (s : pystr) : option (list Z) :=
  match s with
  | [] => Some []
  | c :: rest =>
      let c' := if c <? 128 then Some c
                else if u_isspace rt c then Some 32
                else option_map (fun k => 48 + k) (u_todecimal rt c) in
      match c', to_ascii rt rest with
      | Some a, Some r => Some (a :: r)
      | _, _ => None
      end
  end.

Fixpoint drop_space (cs : list Z) : list Z :=
  match cs with
  | c :: rest => if ascii_space c then drop_space rest else cs
  | [] => []
  end.

Definition strip (cs : list Z) : list Z := rev (drop_space (rev (drop_space cs))).

(** The digit loop of [PyLong_FromString] for base 10: decimal digits with
    single underscores between digits; the value and the number of
    digits. *)
Fixpoint parse_digits (acc : Z) (nd : nat) (after_digit : bool) (cs : list Z)
    : option (Z * nat) :=
  match cs with
  | [] => if after_digit then Some (acc, nd) else None
  | c :: rest =>
      if (48 <=? c) && (c <=? 57) then parse_digits (acc * 10 + (c - 48)) (S nd) true rest
      else if (c =? 95) && after_digit then parse_digits acc nd false rest
      else None
  end.

(** [PyLong_FromString(buffer, &end, 10)] required to consume the whole
    buffer: surrounding whitespace, an optional sign, the digits; above
    640 digits the conversion limit applies. *)
Definition long_from_string (limit : Z) (cs : list Z) : option Z :=
  let body := strip cs in
  let '(sign, digits) :=
    match body with
    | c :: r => if c =? 43 then (1, r) else if c =? 45 then (-1, r) else (1, body)
    | [] => (1, body)
    end in
  match parse_digits 0 0 false digits with
  | None => None
  | Some (v, nd) =>
      if (640 <? Z.of_nat nd) && (0 <? limit) && (limit <? Z.of_nat nd) then None
      else Some (sign * v)
  end.

(** [int(s)] for a [str] [s]; [None] is the [ValueError]. *)
Definition py_int (rt : runtime) (s : pystr) : option Z :=
  match to_ascii rt s with
  | None => None
  | Some cs => long_from_string (int_max_str_digits rt) cs
  end.

(** Truth value of a [str]. *)
Definition truthy (s : pystr) : bool :=
  match s with [] => false | _ => true end.

Definition truthy_opt (o : option pystr) : bool :=
  match o with Some s => truthy s | None => false end.

Fixpoint mem (x : pystr) (l : list pystr) : bool :=
  match l with [] => false | y :: l' => pystr_eqb x y || mem x l' end.

(** [list(dict.fromkeys(xs))]: the keys in first-insertion order. *)
Fixpoint fromkeys_acc (keys : list pystr) (xs : list pystr) : list pystr :=
  match xs with
  | [] => keys
  | x :: rest => fromkeys_acc (if mem x keys then keys else keys ++ [x]) rest
  end.

Definition dict_fromkeys (xs : list pystr) : list pystr := fromkeys_acc [] xs.

End Py.

(** ** The dictionary tables and endpoints (app/models/dict_type.py,
    app/models/dict_option.py, app/api/config.py)

    The store is the content of the two tables.  What the code leaves to
    the database is a parameter ([sqlenv]): the collation under which
    string columns are compared, the row [.first()] returns from a
    query without ORDER BY, and the order [order_by(created_at.desc())]
    gives rows with equal [created_at]. *)
Module Dict.
Import Snowflake Py.

(** Row of [dict_types] with the columns the endpoints read and write. *)
Record DictTypeRow := mkTypeRow {
  tr_id : Z;
  tr_name : pystr;
  tr_type : pystr;
  tr_status : bool;
  tr_created_at : Z
}.

(** Row of [dict_options]. The model class declares the columns [id],
    [dict_type_id], [label], [value], [status], [created_at] and
    [updated_at] ([updated_at] is not read by the endpoints), and the
    relationship [dict_type]; it has no attribute [option_group_id]. *)
Record DictOption := mkOption {
  id : Z;
  dict_type_id : Z;
  label : pystr;
  value : pystr;
  status : bool;
  created_at : Z
}.

Record store := mkStore {
  type_rows : list DictTypeRow;
  option_rows : list DictOption
}.

Record sqlenv := mkSql {
  collate : pystr -> pystr -> bool;
  first_type : list DictTypeRow -> option DictTypeRow;
  newest_first : list DictTypeRow -> list DictTypeRow
}.

(** What SQL guarantees about [.first()]: no row exactly when the query has
    none, and otherwise one of its rows. *)
Definition first_ok (e : sqlenv) : Prop :=
  forall l, (first_type e l = None -> l = []) /\ (forall r, first_type e l = Some r -> In r l).

(** What SQL guarantees about [order_by(DictType.created_at.desc())]. *)
Definition order_ok (e : sqlenv) : Prop :=
  forall l, Permutation (newest_first e l) l
            /\ Sorted (fun a b => tr_created_at b <= tr_created_at a) (newest_first e l).

(** Exceptions raised by the endpoints; [GeneratorError] is one raised by
    the global [generate_id]. *)
Inductive exc :=
  | NotFoundException
  | AttributeError
  | TypeError
  | GeneratorError (e : py_error).

(** *** Dictionary types *)

(** [DictTypeCreate]: [name] 1..100 characters, [type] 1..50 characters,
    [status] an int in [0, 1] (default 1). *)
Record DictTypeCreate := mkTypeCreate {
  c_name : pystr;
  c_type : pystr;
  c_status : Z
}.

Definition valid_type_create (c : DictTypeCreate) : bool :=
  (1 <=? List.length (c_name c))%nat && (List.length (c_name c) <=? 100)%nat
  && (1 <=? List.length (c_type c))%nat && (List.length (c_type c) <=? 50)%nat
  && (0 <=? c_status c) && (c_status c <=? 1).

(** An int assigned to the Boolean [status] column reads back as its
    truth value. *)
Definition bool_of_int (z : Z) : bool := negb (z =? 0).

(** [db.query(DictType).filter(DictType.type == t).first()]. *)
Definition find_type_row (e : sqlenv) (rows : list DictTypeRow) (t : pystr)
    : option DictTypeRow :=
  first_type e (filter (fun r => collate e (tr_type r) t) rows).

Inductive type_upsert_response :=
  | TypeRequestInvalid
  | TypeIntegrityError
  | TypeUpserted (d : store) (row : DictTypeRow).

(** [upsert_dict_type] (POST /dict-types). [TypeRequestInvalid] is the 422
    of the request schema. [name] and [status] are never [None] in a
    [DictTypeCreate], so both assignments of the update branch happen. The
    create branch builds [DictType(name=..., type=..., status=...)] with
    the NOT NULL column [user_id] unset and no default for it, so the
    INSERT issued by [db.commit()] fails and nothing is stored. *)
Definition upsert_dict_type (e : sqlenv) (d : store) (dict_type : DictTypeCreate)
    : type_upsert_response :=
  if negb (valid_type_create dict_type) then TypeRequestInvalid
  else
    match find_type_row e (type_rows d) (c_type dict_type) with
    | Some existing_type =>
        let updated := mkTypeRow (tr_id existing_type) (c_name dict_type)
                         (tr_type existing_type) (bool_of_int (c_status dict_type))
                         (tr_created_at existing_type) in
        TypeUpserted (mkStore (map (fun r => if tr_id r =? tr_id existing_type then updated else r)
                                 (type_rows d))
                              (option_rows d))
                     updated
    | None => TypeIntegrityError
    end.

(** [DictTypeQuery]: optional [type] and [status] (an int in [0, 1])
    filters, [page >= 1], [1 <= page_size <= 100]. *)
Record DictTypeQuery := mkTypeQuery {
  tq_type : option pystr;
  tq_status : option Z;
  tq_page : Z;
  tq_page_size : Z
}.

Definition valid_type_query (q : DictTypeQuery) : bool :=
  match tq_status q with Some s => (0 <=? s) && (s <=? 1) | None => true end
  && (1 <=? tq_page q) && (1 <=? tq_page_size q) && (tq_page_size q <=? 100).

(** The two filters of [get_dict_types]: [if query.type:] (a non-empty
    string) compares the type key, [if query.status is not None:] compares
    the Boolean column, stored as 0 or 1, with the int. *)
Definition type_query_matches (e : sqlenv) (q : DictTypeQuery) (r : DictTypeRow) : bool :=
  (if truthy_opt (tq_type q) then
     match tq_type q with Some t => collate e (tr_type r) t | None => true end
   else true)
  && match tq_status q with
     | Some s => (if tr_status r then 1 else 0) =? s
     | None => true
     end.

(** [get_dict_types] (GET /dict-types): [(total, items)], or the 422 of
    the query schema. [total] is [query_obj.count()]; the page is
    [order_by(created_at.desc()).offset(offset).limit(page_size)]. *)
Definition get_dict_types (e : sqlenv) (d : store) (q : DictTypeQuery)
    : option (Z * list DictTypeRow) :=
  if negb (valid_type_query q) then None
  else
    let query_obj := filter (type_query_matches e q) (type_rows d) in
    let total := Z.of_nat (List.length query_obj) in
    let offset := (tq_page q - 1) * tq_page_size q in
    Some (total, firstn (Z.to_nat (tq_page_size q))
                   (skipn (Z.to_nat offset) (newest_first e query_obj))).

Inductive type_delete_response :=
  | TypeDeleteRaised (e : exc)
  | TypeDeleted (d : store) (row : DictTypeRow) (deleted_options_count : nat).

(** [delete_dict_type] (DELETE /dict-types/{identifier}): an identifier
    that [int()] accepts is looked up as an id, on [ValueError] as a type
    key; deleting the type row cascades (ON DELETE CASCADE) to the options
    whose [dict_type_id] is its id. *)
Definition delete_dict_type (e : sqlenv) (rt : runtime) (d : store) (identifier : pystr)
    : type_delete_response :=
  let dict_type :=
    match py_int rt identifier with
    | Some type_id => first_type e (filter (fun r => tr_id r =? type_id) (type_rows d))
    | None => find_type_row e (type_rows d) identifier
    end in
  match dict_type with
  | None => TypeDeleteRaised NotFoundException
  | Some dt =>
      let option_count :=
        List.length (filter (fun o => dict_type_id o =? tr_id dt) (option_rows d)) in
      TypeDeleted (mkStore (filter (fun r => negb (tr_id r =? tr_id dt)) (type_rows d))
                           (filter (fun o => negb (dict_type_id o =? tr_id dt)) (option_rows d)))
                  dt option_count
  end.

(** The row [delete_dict_type] looks for: an identifier that [int()]
    accepts selects by id only, any other by type key. *)
Definition targets (e : sqlenv) (rt : runtime) (identifier : pystr) (r : DictTypeRow) : Prop :=
  match py_int rt identifier with
  | Some n => tr_id r = n
  | None => collate e (tr_type r) identifier = true
  end.

(** *** Dictionary options *)

(** [DictOptionUpsert.value]: [Union[str, List[str]]]. *)
Inductive upsert_value := VStr (s : pystr) | VList (l : list pystr).

(** Iterating the value: a [str] yields its characters. *)
Definition py_iter (v : upsert_value) : list pystr :=
  match v with
  | VStr s => map (fun c => [c]) s
  | VList l => l
  end.

(** [DictOptionUpsert]: [dict_type] 1..50 characters, [label] 1..100
    characters, [value], [status] (default [True]). *)
Record DictOptionUpsert := mkUpsert {
  up_dict_type : pystr;
  up_label : pystr;
  up_value : upsert_value;
  up_status : bool
}.

Definition valid_upsert (u : DictOptionUpsert) : bool :=
  (1 <=? List.length (up_dict_type u))%nat && (List.length (up_dict_type u) <=? 50)%nat
  && (1 <=? List.length (up_label u))%nat && (List.length (up_label u) <=? 100)%nat.

(** Outcome of [upsert_dict_option]: the 422 of the request schema, a call
    whose [generate_id] never returns, an exception, or the success
    response ([value], [option_id]); with the store and the global
    generator afterwards. An exception ends the request before
    [db.commit()], so the session's changes are discarded. *)
Inductive upsert_outcome :=
  | UpsertRejected
  | UpsertSpinning (g : SnowflakeGenerator)
  | UpsertRaised (e : exc) (d : store) (g : SnowflakeGenerator) (rest : clock)
  | UpsertCreated (d : store) (values : list pystr) (option_id : Z)
                  (g : SnowflakeGenerator) (rest : clock).

(** [upsert_dict_option] (POST /dict-options), with the global generator
    [g] and the clock it reads.
    - Existing (type, label): the filter
      [DictOption.option_group_id == existing_option.option_group_id]
      evaluates the class attribute [DictOption.option_group_id] first,
      which raises [AttributeError] (line 301); [_update_dict_option_internal]
      is never reached.
    - Otherwise [generate_id()] runs, then the loop over the unique values
      calls [DictOption(option_group_id=..., ...)]; the declarative
      constructor rejects the keyword [option_group_id], an attribute the
      class does not have, with [TypeError] (line 324), before any
      [db.add]. With no value the loop does not run and the commit writes
      nothing. *)
Definition upsert_dict_option (e : sqlenv) (d : store) (dict_option : DictOptionUpsert)
    (g : SnowflakeGenerator) (clk : clock) : upsert_outcome :=
  if negb (valid_upsert dict_option) then UpsertRejected
  else
    match find_type_row e (type_rows d) (up_dict_type dict_option) with
    | None => UpsertRaised NotFoundException d g clk
    | Some dict_type =>
        match filter (fun o => (dict_type_id o =? tr_id dict_type)
                               && collate e (label o) (up_label dict_option))
                     (option_rows d) with
        | _ :: _ => UpsertRaised AttributeError d g clk
        | [] =>
            let unique_values := dict_fromkeys (py_iter (up_value dict_option)) in
            match generate_id g clk with
            | Spinning g' => UpsertSpinning g'
            | Raised err g' rest => UpsertRaised (GeneratorError err) d g' rest
            | Returned option_group_id g' rest =>
                match unique_values with
                | [] => UpsertCreated d [] option_group_id g' rest
                | _ :: _ => UpsertRaised TypeError d g' rest
                end
            end
        end
    end.

(** [upsert_dict_option_by_type_label] (PUT /dict-options/by-type-label)
    has the same body as [upsert_dict_option] (lines 444-500 repeat lines
    286-351). *)
Definition upsert_dict_option_by_type_label := upsert_dict_option.

(** [DictOptionQuery]. *)
Record DictOptionQuery := mkQuery {
  q_dict_type : option pystr;
  q_status : option bool;
  page : Z;
  page_size : Z
}.

(** The rows of the inner join with [dict_types] that pass the two
    filters ([dict_types.id] is the primary key, so a row joins at most
    one type). *)
Definition query_rows (e : sqlenv) (d : store) (q : DictOptionQuery) : list DictOption :=
  filter (fun o =>
    existsb (fun dt =>
      (tr_id dt =? dict_type_id o)
      && (if truthy_opt (q_dict_type q) then
            match q_dict_type q with Some t => collate e (tr_type dt) t | None => true end
          else true))
      (type_rows d)
    && match q_status q with Some s => Bool.eqb (status o) s | None => true end)
    (option_rows d).

(** A grouped item of the listing. *)
Record OptionItem := mkItem {
  it_dict_type : pystr;
  it_label : pystr;
  it_value : list pystr;
  it_option_id : pystr;
  it_status : bool
}.

Inductive list_outcome :=
  | ListRejected
  | ListRaised (e : exc)
  | Listed (total : Z) (items : list OptionItem).

(** [get_dict_options] (GET /dict-options): the grouping loop reads
    [do.option_group_id] on the first row, which raises [AttributeError]
    (line 391) whatever the order of the rows; with no row the dict stays
    empty and the response is [total = 0], no item. *)
Definition get_dict_options (e : sqlenv) (d : store) (q : DictOptionQuery) : list_outcome :=
  if (page q <? 1) || (page_size q <? 1) || (page_size q >? 100) then ListRejected
  else
    match query_rows e d q with
    | _ :: _ => ListRaised AttributeError
    | [] =>
        let option_list : list OptionItem := [] in
        let total := Z.of_nat (List.length option_list) in
        let offset := (page q - 1) * page_size q in
        Listed total (firstn (Z.to_nat (page_size q)) (skipn (Z.to_nat offset) option_list))
    end.

Inductive delete_response :=
  | DeleteRaised (e : exc)
  | Deleted (d : store) (count : nat).

(** [delete_dict_option_by_id] (DELETE /dict-options/by-option-id/{option_id}):
    in [DictOption.option_group_id == int(option_id)] the left operand is
    evaluated first and raises [AttributeError] (line 623), before
    [int(option_id)] and before any query. *)
Definition delete_dict_option_by_id (d : store) (option_id : pystr) : delete_response :=
  DeleteRaised AttributeError.

(** [delete_dict_option_by_type_label] (DELETE /dict-options/by-type-label):
    the type and a row with the label are looked up; the filter
    [DictOption.option_group_id == existing_option.option_group_id] then
    raises [AttributeError] (line 684). *)
Definition delete_dict_option_by_type_label (e : sqlenv) (d : store) (dict_type lbl : pystr)
    : delete_response :=
  match find_type_row e (type_rows d) dict_type with
  | None => DeleteRaised NotFoundException
  | Some dict_type_obj =>
      match filter (fun o => (dict_type_id o =? tr_id dict_type_obj) && collate e (label o) lbl)
                   (option_rows d) with
      | [] => DeleteRaised NotFoundException
      | _ :: _ => DeleteRaised AttributeError
      end
  end.

End Dict.

(** ** Concrete instances used by the witnesses *)
Module DictExamples.
Import Snowflake Py Dict.
Local Open Scope string_scope.

(** Stable insertion sort, newest first. *)
Fixpoint insert_newest (r : DictTypeRow) (l : list DictTypeRow) : list DictTypeRow :=
  match l with
  | [] => [r]
  | x :: rest => if Z.ltb (tr_created_at x) (tr_created_at r) then r :: x :: rest
                 else x :: insert_newest r rest
  end.

Fixpoint sort_newest (l : list DictTypeRow) : list DictTypeRow :=
  match l with [] => [] | x :: rest => insert_newest x (sort_newest rest) end.

(** A binary collation, the first row in table order, and a stable sort. *)
Definition exact_env : sqlenv := mkSql pystr_eqb (@hd_error DictTypeRow) sort_newest.

(** A runtime whose Unicode table knows the ideographic space U+3000,
    the no-break space U+00A0 and the fullwidth digits U+FF10..U+FF19. *)
Definition rt_sample : runtime :=
  mkRuntime (fun c => Z.eqb c 12288 || Z.eqb c 160)
            (fun c => if Z.leb 65296 c && Z.leb c 65305 then Some (c - 65296) else None)
            4300.

Definition freight : DictTypeRow :=
  mkTypeRow 100 (of_ascii "Freight") (of_ascii "freight_code") true 1.
Definition goods42 : DictTypeRow :=
  mkTypeRow 101 (of_ascii "Goods") (of_ascii "42") true 2.

(** A row as the import script [import_dict_data.py] writes it. *)
Definition rate_m : DictOption := mkOption 1000 100 (of_ascii "rate") (of_ascii "M") true 1.

Definition no_options_db : store := mkStore [freight] [].
Definition imported_db : store := mkStore [freight] [rate_m].
Definition types_db : store :=
  mkStore [freight; goods42] [rate_m; mkOption 1001 101 (of_ascii "g") (of_ascii "x") true 3].

Definition three_db : store :=
  mkStore [freight]
    [rate_m; mkOption 1001 100 (of_ascii "size") (of_ascii "S") true 2;
     mkOption 1002 100 (of_ascii "kind") (of_ascii "K") true 3].

Definition gen11 : SnowflakeGenerator := mkGen 1 1 0 (-1).
Definition clk2 : clock := [EPOCH + 5; EPOCH + 6].

Definition upsert_req (lbl : string) (v : upsert_value) : DictOptionUpsert :=
  mkUpsert (of_ascii "freight_code") (of_ascii lbl) v true.

Definition retitle : DictTypeCreate :=
  mkTypeCreate (of_ascii "Freight codes") (of_ascii "freight_code") 0.

(** The fullwidth digits "４２" and "１００". *)
Definition fw42 : pystr := [65300; 65298].
Definition fw100 : pystr := [65297; 65296; 65296].

End DictExamples.


Module SnowflakeFacts.
Import Snowflake.

Lemma lor_shiftl_low a b k : 0 <= k -> 0 <= b < 2 ^ k ->
  Z.lor (Z.shiftl a k) b = a * 2 ^ k + b.
Proof.
  intros Hk Hb. rewrite Z.shiftl_mul_pow2 by lia.
  assert (Hp : 0 < 2 ^ k) by (apply Z.pow_pos_nonneg; lia).
  apply Z.bits_inj'; intros n Hn. rewrite Z.lor_spec.
  destruct (Z.lt_ge_cases n k) as [Hlt|Hge].
  - rewrite Z.mul_pow2_bits_low by lia.
    rewrite <- (Z.mod_pow2_bits_low (a * 2 ^ k + b) k n) by lia.
    rewrite Z.add_comm, Z.mod_add by lia. rewrite Z.mod_small by lia. reflexivity.
  - rewrite Z.mul_pow2_bits by lia.
    rewrite <- (Z.mod_small b (2 ^ k)) at 1 by lia.
    rewrite Z.mod_pow2_bits_high by lia. rewrite orb_false_r.
    replace n with ((n - k) + k) at 2 by lia.
    rewrite <- Z.div_pow2_bits by lia.
    f_equal. rewrite Z.add_comm, Z.div_add by lia. rewrite Z.div_small by lia. lia.
Qed.

(** With the node fields and the sequence in range, the bitwise or of the
    four fields is their sum. *)
Lemma assemble_arith g t s :
  0 <= datacenter_id g <= 31 -> 0 <= machine_id g <= 31 -> 0 <= s <= 4095 ->
  assemble g t s
  = (t - EPOCH) * 4194304 + (datacenter_id g * 131072 + machine_id g * 4096 + s).
Proof.
  intros Hd Hm Hs. unfold assemble.
  change TIMESTAMP_SHIFT with 22. change DATACENTER_ID_SHIFT with 17.
  change MACHINE_ID_SHIFT with 12.
  rewrite <- !Z.lor_assoc.
  rewrite (lor_shiftl_low (machine_id g) s 12) by (cbn; lia).
  rewrite (lor_shiftl_low (datacenter_id g) _ 17) by (cbn; lia).
  rewrite (lor_shiftl_low (t - EPOCH) _ 22) by (cbn; lia).
  cbn. lia.
Qed.

Lemma id_formula_assemble g t s :
  id_formula t (datacenter_id g) (machine_id g) s = assemble g t s.
Proof. reflexivity. Qed.

Lemma land_seq_succ s : 0 <= s <= 4095 ->
  Z.land (s + 1) MAX_SEQUENCE = if s =? 4095 then 0 else s + 1.
Proof.
  intros Hs. change MAX_SEQUENCE with (Z.ones 12).
  rewrite Z.land_ones by lia. change (2 ^ 12) with 4096.
  destruct (Z.eqb_spec s 4095) as [->|Hne]; [reflexivity|].
  apply Z.mod_small. lia.
Qed.

Lemma wait_next_millis_spec last clk t rest :
  _wait_next_millis last clk = Some (t, rest) ->
  last < t /\ exists skipped, clk = skipped ++ t :: rest /\
                              Forall (fun x => x <= last) skipped.
Proof.
  revert t rest. induction clk as [|x clk IH]; intros t rest H; [discriminate|].
  cbn in H. destruct (Z.leb_spec x last) as [Hle|Hgt].
  - destruct (IH _ _ H) as [Hlt [sk [-> Hsk]]].
    split; [exact Hlt|]. exists (x :: sk). split; [reflexivity|]. now constructor.
  - injection H as <- <-. split; [exact Hgt|]. exists []. split; [reflexivity|constructor].
Qed.

Lemma wait_next_millis_skip last skipped t rest :
  Forall (fun x => x <= last) skipped -> last < t ->
  _wait_next_millis last (skipped ++ t :: rest) = Some (t, rest).
Proof.
  intros Hsk Ht. induction Hsk as [|x sk Hx Hsk IH]; cbn.
  - destruct (Z.leb_spec t last); [lia|reflexivity].
  - destruct (Z.leb_spec x last); [exact IH|lia].
Qed.

Lemma wait_next_millis_in last clk t rest (P : Z -> Prop) :
  Forall P clk -> _wait_next_millis last clk = Some (t, rest) -> P t /\ Forall P rest.
Proof.
  intros HP H. apply wait_next_millis_spec in H as [_ [sk [-> _]]].
  apply Forall_app in HP as [_ HP]. inversion HP; subst. auto.
Qed.

(** One successful call: the invariant is kept, the node fields are kept,
    the identifier is the key of the new state and exceeds the old key. *)
Lemma generate_id_step g clk i g' clk' :
  inv g -> generate_id g clk = Returned i g' clk' ->
  inv g' /\ datacenter_id g' = datacenter_id g /\ machine_id g' = machine_id g /\
  i = key g' /\ key g < key g'.
Proof.
  intros (Hd & Hm & Hs) H. unfold key.
  destruct clk as [|t rest]; cbn in H; [discriminate|].
  destruct (Z.ltb_spec t (last_timestamp g)) as [Hlt|Hge]; [discriminate|].
  destruct (Z.eqb_spec t (last_timestamp g)) as [Heq|Hne].
  - rewrite land_seq_succ in H by lia.
    destruct (Z.eqb_spec (sequence g) 4095) as [H4095|Hn4095]; cbn in H.
    + destruct (_wait_next_millis (last_timestamp g) rest) as [[t' rest'']|] eqn:Hw;
        [|discriminate].
      injection H as <- <- <-. apply wait_next_millis_spec in Hw as [Hw _].
      unfold inv; cbn. repeat split; try lia.
      rewrite !assemble_arith by (cbn; lia). cbn. lia.
    + destruct (Z.eqb_spec (sequence g + 1) 0); [lia|].
      injection H as <- <- <-. unfold inv; cbn. repeat split; try lia.
      rewrite !assemble_arith by (cbn; lia). cbn. subst t. lia.
  - injection H as <- <- <-. unfold inv; cbn. repeat split; try lia.
    rewrite !assemble_arith by (cbn; lia). cbn. lia.
Qed.

Lemma run_sorted_from n g clk :
  inv g -> Sorted Z.lt (key g :: run n g clk).
Proof.
  revert g clk. induction n as [|n IH]; intros g clk Hg; cbn.
  - repeat constructor.
  - destruct (generate_id g clk) as [i g' clk'|e g' clk'|g'] eqn:Hgen;
      try (repeat constructor; fail).
    destruct (generate_id_step _ _ _ _ _ Hg Hgen) as (Hg' & _ & _ & -> & Hlt).
    specialize (IH g' clk' Hg'). constructor; [exact IH|]. now constructor.
Qed.

Lemma init_spec dc mc g :
  init dc mc = Ok g ->
  inv g /\ datacenter_id g = dc /\ machine_id g = mc /\
  sequence g = 0 /\ last_timestamp g = -1.
Proof.
  unfold init. change MAX_DATACENTER_ID with 31. change MAX_MACHINE_ID with 31.
  destruct (Z.gtb_spec dc 31), (Z.ltb_spec dc 0), (Z.gtb_spec mc 31), (Z.ltb_spec mc 0);
    cbn; intros Hi; try discriminate.
  injection Hi as <-. unfold inv; cbn. repeat split; lia.
Qed.

Lemma init_error dc mc :
  init dc mc = Err ValueError <-> ~ (0 <= dc <= 31 /\ 0 <= mc <= 31).
Proof.
  unfold init. change MAX_DATACENTER_ID with 31. change MAX_MACHINE_ID with 31.
  destruct (Z.gtb_spec dc 31), (Z.ltb_spec dc 0), (Z.gtb_spec mc 31), (Z.ltb_spec mc 0);
    cbn; split; intros Hi; try discriminate; try reflexivity; lia.
Qed.

Lemma node_field_assemble g t s :
  0 <= datacenter_id g <= 31 -> 0 <= machine_id g <= 31 -> 0 <= s <= 4095 ->
  node_field (assemble g t s) = datacenter_id g * 32 + machine_id g.
Proof.
  intros Hd Hm Hs. rewrite assemble_arith by assumption. unfold node_field.
  change 1023 with (Z.ones 10). rewrite Z.land_ones by lia.
  rewrite Z.shiftr_div_pow2 by lia. change (2 ^ 12) with 4096. change (2 ^ 10) with 1024.
  replace ((t - EPOCH) * 4194304 + (datacenter_id g * 131072 + machine_id g * 4096 + s))
    with (s + ((t - EPOCH) * 1024 + datacenter_id g * 32 + machine_id g) * 4096) by lia.
  rewrite Z.div_add by lia. rewrite (Z.div_small s) by lia. cbn.
  replace ((t - EPOCH) * 1024 + datacenter_id g * 32 + machine_id g)
    with ((datacenter_id g * 32 + machine_id g) + (t - EPOCH) * 1024) by lia.
  rewrite Z.mod_add by lia. apply Z.mod_small. lia.
Qed.

Lemma run_node n g clk :
  inv g ->
  Forall (fun i => node_field i = datacenter_id g * 32 + machine_id g) (run n g clk).
Proof.
  revert g clk. induction n as [|n IH]; intros g clk Hg; cbn; [constructor|].
  destruct (generate_id g clk) as [i g' clk'|e g' clk'|g'] eqn:Hgen; try constructor.
  - destruct (generate_id_step _ _ _ _ _ Hg Hgen) as (Hg' & Hd & Hm & -> & _).
    unfold key. destruct Hg' as (Hd' & Hm' & Hs').
    rewrite node_field_assemble by assumption. congruence.
  - destruct (generate_id_step _ _ _ _ _ Hg Hgen) as (Hg' & Hd & Hm & _ & _).
    rewrite <- Hd, <- Hm. now apply IH.
Qed.

Lemma generate_id_reads g clk i g' clk' (P : Z -> Prop) :
  Forall P clk -> generate_id g clk = Returned i g' clk' ->
  P (last_timestamp g') /\ Forall P clk'.
Proof.
  intros HP H. destruct clk as [|t rest]; unfold generate_id in H; [discriminate|].
  inversion HP as [|? ? Ht Hrest]; subst.
  destruct (t <? last_timestamp g); [discriminate|].
  destruct (t =? last_timestamp g).
  - destruct (Z.land (sequence g + 1) MAX_SEQUENCE =? 0).
    + destruct (_wait_next_millis (last_timestamp g) rest) as [[t' r']|] eqn:Hw;
        [|discriminate].
      inversion H; subst; cbn. eapply wait_next_millis_in; eassumption.
    + inversion H; subst; cbn. auto.
  - inversion H; subst; cbn. auto.
Qed.

Lemma run_window n g clk :
  inv g -> Forall (fun t => EPOCH <= t < EPOCH + 2 ^ 41) clk ->
  Forall (fun i => 0 <= i < 2 ^ 63) (run n g clk).
Proof.
  revert g clk. induction n as [|n IH]; intros g clk Hg Hclk; cbn; [constructor|].
  destruct (generate_id g clk) as [i g' clk'|e g' clk'|g'] eqn:Hgen; try constructor.
  - destruct (generate_id_step _ _ _ _ _ Hg Hgen) as (Hg' & _ & _ & -> & _).
    destruct (generate_id_reads _ _ _ _ _ _ Hclk Hgen) as [Ht _].
    destruct Hg' as (Hd & Hm & Hs). unfold key.
    rewrite assemble_arith by assumption. unfold EPOCH in *. cbn in *. lia.
  - destruct (generate_id_step _ _ _ _ _ Hg Hgen) as (Hg' & _).
    destruct (generate_id_reads _ _ _ _ _ _ Hclk Hgen) as [_ Hclk'].
    now apply IH.
Qed.

End SnowflakeFacts.

Module Claims.
Import Snowflake SnowflakeFacts.

Lemma run_sorted n g clk : inv g -> Sorted Z.lt (run n g clk).
Proof.
  intros Hg. pose proof (run_sorted_from n g clk Hg) as Hs.
  apply Sorted_inv in Hs as [Hs _]. exact Hs.
Qed.

Lemma u64_small x : 0 <= x < 2 ^ 63 -> u64 x = x.
Proof.
  intros Hx. unfold u64. apply Z.mod_small.
  assert (2 ^ 63 < 2 ^ 64) by (cbn; lia). lia.
Qed.

(** C2: on a constructed generator, the identifiers of successive calls
    that return are strictly increasing; with the clock inside the 41-bit
    timestamp window they lie in [0, 2^63) and are also strictly increasing
    read as unsigned 64-bit integers. *)
Theorem ids_strictly_increasing dc mc g n clk :
  init dc mc = Ok g ->
  Sorted Z.lt (run n g clk)
  /\ (Forall in_window clk ->
      Forall (fun i => 0 <= i < 2 ^ 63) (run n g clk)
      /\ Sorted Z.lt (map u64 (run n g clk))).
Proof.
  intros Hi. destruct (init_spec _ _ _ Hi) as (Hg & _).
  split; [now apply run_sorted|]. intros Hw.
  assert (Hr : Forall (fun i => 0 <= i < 2 ^ 63) (run n g clk)) by (now apply run_window).
  split; [exact Hr|].
  rewrite (map_ext_in u64 (fun x => x)), map_id; [now apply run_sorted|].
  intros x Hx. apply u64_small. rewrite Forall_forall in Hr. now apply Hr.
Qed.

Lemma ids_strictly_increasing_witness :
  init 1 1 = Ok (mkGen 1 1 0 (-1))
  /\ Sorted Z.lt (run 4 (mkGen 1 1 0 (-1)) [EPOCH; EPOCH; EPOCH + 1; EPOCH + 1])
  /\ (Forall in_window [EPOCH; EPOCH; EPOCH + 1; EPOCH + 1] ->
      Forall (fun i => 0 <= i < 2 ^ 63)
        (run 4 (mkGen 1 1 0 (-1)) [EPOCH; EPOCH; EPOCH + 1; EPOCH + 1])
      /\ Sorted Z.lt (map u64 (run 4 (mkGen 1 1 0 (-1)) [EPOCH; EPOCH; EPOCH + 1; EPOCH + 1]))).
Proof.
  split; [reflexivity|].
  apply (ids_strictly_increasing 1 1 (mkGen 1 1 0 (-1)) 4
           [EPOCH; EPOCH; EPOCH + 1; EPOCH + 1]).
  reflexivity.
Defined.

(** C3: the three branches of [generate_id] on a same or later millisecond
    (including the busy-poll after a sequence overflow, and the poll that
    never ends while the clock stays at or before the last timestamp), and
    every returned identifier is the spec's formula applied to the
    configured node fields, the final timestamp and the final sequence. *)
Theorem generate_id_branches g :
  inv g ->
  (forall rest, sequence g < 4095 ->
     generate_id g (last_timestamp g :: rest)
     = Returned (id_formula (last_timestamp g) (datacenter_id g) (machine_id g) (sequence g + 1))
         (mkGen (datacenter_id g) (machine_id g) (sequence g + 1) (last_timestamp g)) rest)
  /\ (forall skipped t' rest, sequence g = 4095 ->
        Forall (fun x => x <= last_timestamp g) skipped -> last_timestamp g < t' ->
        generate_id g (last_timestamp g :: skipped ++ t' :: rest)
        = Returned (id_formula t' (datacenter_id g) (machine_id g) 0)
            (mkGen (datacenter_id g) (machine_id g) 0 t') rest)
  /\ (forall skipped, sequence g = 4095 ->
        Forall (fun x => x <= last_timestamp g) skipped ->
        generate_id g (last_timestamp g :: skipped)
        = Spinning (mkGen (datacenter_id g) (machine_id g) 0 (last_timestamp g)))
  /\ (forall t rest, last_timestamp g < t ->
        generate_id g (t :: rest)
        = Returned (id_formula t (datacenter_id g) (machine_id g) 0)
            (mkGen (datacenter_id g) (machine_id g) 0 t) rest)
  /\ (forall clk i g' clk', generate_id g clk = Returned i g' clk' ->
        datacenter_id g' = datacenter_id g /\ machine_id g' = machine_id g
        /\ i = id_formula (last_timestamp g') (datacenter_id g) (machine_id g) (sequence g')).
Proof.
  intros Hg. pose proof Hg as (Hd & Hm & Hs).
  split; [|split; [|split; [|split]]].
  - intros rest Hlt. cbn. rewrite Z.ltb_irrefl, Z.eqb_refl, land_seq_succ by lia.
    destruct (Z.eqb_spec (sequence g) 4095) as [|_]; [lia|].
    destruct (Z.eqb_spec (sequence g + 1) 0); [lia|]. reflexivity.
  - intros skipped t' rest H4095 Hsk Ht'. cbn. rewrite Z.ltb_irrefl, Z.eqb_refl, land_seq_succ by lia.
    rewrite H4095. cbn. rewrite wait_next_millis_skip by assumption. reflexivity.
  - intros skipped H4095 Hsk. cbn. rewrite Z.ltb_irrefl, Z.eqb_refl, land_seq_succ by lia.
    rewrite H4095. cbn.
    assert (Hn : _wait_next_millis (last_timestamp g) skipped = None).
    { induction Hsk as [|x sk Hx _ IH]; cbn; [reflexivity|].
      destruct (Z.leb_spec x (last_timestamp g)); [exact IH | lia]. }
    now rewrite Hn.
  - intros t rest Ht. cbn.
    destruct (Z.ltb_spec t (last_timestamp g)); [lia|].
    destruct (Z.eqb_spec t (last_timestamp g)); [lia|]. reflexivity.
  - intros clk i g' clk' H.
    destruct (generate_id_step _ _ _ _ _ Hg H) as (_ & Hd' & Hm' & -> & _).
    split; [exact Hd'|]. split; [exact Hm'|].
    unfold key. rewrite <- Hd', <- Hm'. reflexivity.
Qed.

Lemma generate_id_branches_witness :
  inv (mkGen 1 1 4095 (EPOCH + 7))
  /\ generate_id (mkGen 1 1 4095 (EPOCH + 7)) [EPOCH + 7; EPOCH + 6; EPOCH + 8]
     = Returned (id_formula (EPOCH + 8) 1 1 0) (mkGen 1 1 0 (EPOCH + 8)) [].
Proof.
  assert (Hg : inv (mkGen 1 1 4095 (EPOCH + 7))) by (unfold inv; cbn; lia).
  split; [exact Hg|].
  destruct (generate_id_branches _ Hg) as (_ & H & _).
  apply (H [EPOCH + 6] (EPOCH + 8) []); cbn.
  - reflexivity.
  - constructor; [unfold EPOCH; lia | constructor].
  - unfold EPOCH; lia.
Defined.

(** C4: construction accepts exactly the node fields in [0, 31]; two
    generators built with different (datacenter, machine) pairs never return
    a common identifier, whatever the clocks and numbers of calls, because
    the 10 node bits of every identifier are the generator's own. *)
Theorem distinct_nodes_disjoint dc1 mc1 dc2 mc2 g1 g2 n1 n2 clk1 clk2 :
  init dc1 mc1 = Ok g1 -> init dc2 mc2 = Ok g2 -> (dc1, mc1) <> (dc2, mc2) ->
  (forall dc mc, init dc mc = Err ValueError <-> ~ (0 <= dc <= 31 /\ 0 <= mc <= 31))
  /\ Forall (fun i => node_field i = dc1 * 32 + mc1) (run n1 g1 clk1)
  /\ Forall (fun i => node_field i = dc2 * 32 + mc2) (run n2 g2 clk2)
  /\ forall i, In i (run n1 g1 clk1) -> ~ In i (run n2 g2 clk2).
Proof.
  intros H1 H2 Hne.
  destruct (init_spec _ _ _ H1) as (Hg1 & Hd1 & Hm1 & _).
  destruct (init_spec _ _ _ H2) as (Hg2 & Hd2 & Hm2 & _).
  pose proof (run_node n1 g1 clk1 Hg1) as Hn1. pose proof (run_node n2 g2 clk2 Hg2) as Hn2.
  rewrite Hd1, Hm1 in Hn1. rewrite Hd2, Hm2 in Hn2.
  split; [exact init_error|]. split; [exact Hn1|]. split; [exact Hn2|].
  intros i Hi1 Hi2. rewrite Forall_forall in Hn1, Hn2.
  specialize (Hn1 i Hi1). specialize (Hn2 i Hi2).
  destruct Hg1 as (Ha & Hb & _). destruct Hg2 as (Hc & He & _).
  rewrite Hd1, Hm1 in *. rewrite Hd2, Hm2 in *.
  apply Hne. f_equal; lia.
Qed.

Lemma distinct_nodes_disjoint_witness :
  init 1 1 = Ok (mkGen 1 1 0 (-1)) /\ init 1 2 = Ok (mkGen 1 2 0 (-1))
  /\ (1, 1) <> (1, 2)
  /\ ((forall dc mc, init dc mc = Err ValueError <-> ~ (0 <= dc <= 31 /\ 0 <= mc <= 31))
      /\ Forall (fun i => node_field i = 1 * 32 + 1)
           (run 2 (mkGen 1 1 0 (-1)) [EPOCH; EPOCH])
      /\ Forall (fun i => node_field i = 1 * 32 + 2)
           (run 2 (mkGen 1 2 0 (-1)) [EPOCH; EPOCH])
      /\ forall i, In i (run 2 (mkGen 1 1 0 (-1)) [EPOCH; EPOCH]) ->
           ~ In i (run 2 (mkGen 1 2 0 (-1)) [EPOCH; EPOCH])).
Proof.
  split; [reflexivity|]. split; [reflexivity|].
  assert (Hne : (1, 1) <> (1, 2)) by (intros H; inversion H).
  split; [exact Hne|].
  apply (distinct_nodes_disjoint 1 1 1 2 _ _ 2 2 [EPOCH; EPOCH] [EPOCH; EPOCH]);
    [reflexivity | reflexivity | exact Hne].
Defined.

(** C5: a reading before the last timestamp raises [RuntimeError] on that
    call, returns no identifier, consumes one reading and leaves the
    instance unchanged, so every retry at such a reading raises again. *)
Theorem clock_regression_raises g t rest :
  t < last_timestamp g ->
  generate_id g (t :: rest) = Raised RuntimeError g rest
  /\ forall n, run (S n) g (t :: rest) = [].
Proof.
  intros Ht. assert (H : generate_id g (t :: rest) = Raised RuntimeError g rest).
  { cbn. destruct (Z.ltb_spec t (last_timestamp g)); [reflexivity | lia]. }
  split; [exact H|]. intros n. cbn [run]. now rewrite H.
Qed.

Lemma clock_regression_raises_witness :
  EPOCH + 3 < last_timestamp (mkGen 1 1 0 (EPOCH + 5))
  /\ generate_id (mkGen 1 1 0 (EPOCH + 5)) [EPOCH + 3; EPOCH + 6]
     = Raised RuntimeError (mkGen 1 1 0 (EPOCH + 5)) [EPOCH + 6]
  /\ forall n, run (S n) (mkGen 1 1 0 (EPOCH + 5)) [EPOCH + 3; EPOCH + 6] = [].
Proof.
  assert (Ht : EPOCH + 3 < last_timestamp (mkGen 1 1 0 (EPOCH + 5))) by (cbn; lia).
  split; [exact Ht|]. exact (clock_regression_raises _ _ _ Ht).
Defined.

End Claims.

Module SnowflakeExtras.
Import Snowflake SnowflakeFacts.

Lemma decode_arith T dc mc s :
  0 <= dc <= 31 -> 0 <= mc <= 31 -> 0 <= s <= 4095 ->
  let i := T * 4194304 + (dc * 131072 + mc * 4096 + s) in
  Z.shiftr i 22 = T /\ Z.land (Z.shiftr i 17) 31 = dc
  /\ Z.land (Z.shiftr i 12) 31 = mc /\ Z.land i 4095 = s.
Proof.
  intros Hd Hm Hs i.
  change 31 with (Z.ones 5). change 4095 with (Z.ones 12).
  rewrite !Z.land_ones, !Z.shiftr_div_pow2 by lia.
  change (2 ^ 22) with 4194304. change (2 ^ 17) with 131072.
  change (2 ^ 12) with 4096. change (2 ^ 5) with 32.
  split; [|split; [|split]].
  - symmetry. apply (Z.div_unique _ _ _ (dc * 131072 + mc * 4096 + s)); [lia | unfold i; lia].
  - rewrite <- (Z.div_unique i 131072 (T * 32 + dc) (mc * 4096 + s)) by (unfold i; lia).
    symmetry. apply (Z.mod_unique _ _ T); lia.
  - rewrite <- (Z.div_unique i 4096 (T * 1024 + dc * 32 + mc) s) by (unfold i; lia).
    symmetry. apply (Z.mod_unique _ _ (T * 32 + dc)); lia.
  - symmetry. apply (Z.mod_unique _ _ (T * 1024 + dc * 32 + mc)); [lia | unfold i; lia].
Qed.

(** An identifier returned by [generate_id] decodes back to the state the
    call leaves: its bits above 22 are the timestamp offset from the
    epoch, then the datacenter, machine and sequence fields. *)
Theorem generate_id_decode g clk i g' clk' :
  inv g -> generate_id g clk = Returned i g' clk' ->
  Z.shiftr i 22 = last_timestamp g' - EPOCH
  /\ Z.land (Z.shiftr i 17) 31 = datacenter_id g
  /\ Z.land (Z.shiftr i 12) 31 = machine_id g
  /\ Z.land i 4095 = sequence g'.
Proof.
  intros Hg H. destruct (generate_id_step _ _ _ _ _ Hg H) as ((Hd & Hm & Hs) & Hdc & Hmc & -> & _).
  unfold key. rewrite assemble_arith by assumption. rewrite <- Hdc, <- Hmc.
  exact (decode_arith _ _ _ _ Hd Hm Hs).
Qed.

Lemma generate_id_decode_witness :
  inv (mkGen 3 7 0 (-1))
  /\ exists i g' clk',
       generate_id (mkGen 3 7 0 (-1)) [EPOCH + 5] = Returned i g' clk'
       /\ Z.shiftr i 22 = 5 /\ Z.land (Z.shiftr i 17) 31 = 3.
Proof.
  assert (Hg : inv (mkGen 3 7 0 (-1))) by (unfold inv; cbn; lia).
  split; [exact Hg|].
  exists (assemble (mkGen 3 7 0 (EPOCH + 5)) (EPOCH + 5) 0), (mkGen 3 7 0 (EPOCH + 5)), [].
  assert (H : generate_id (mkGen 3 7 0 (-1)) [EPOCH + 5]
              = Returned (assemble (mkGen 3 7 0 (EPOCH + 5)) (EPOCH + 5) 0)
                  (mkGen 3 7 0 (EPOCH + 5)) []) by reflexivity.
  split; [exact H|].
  destruct (generate_id_decode _ _ _ _ _ Hg H) as (H1 & H2 & _).
  split; [rewrite H1; cbn; lia | exact H2].
Defined.

(** Python integers are unbounded: an identifier is non-negative exactly
    when its timestamp is not before the epoch, and below [2^63] exactly
    when the timestamp is within [2^41] ms after the epoch. *)
Theorem generate_id_sign g clk i g' clk' :
  inv g -> generate_id g clk = Returned i g' clk' ->
  (0 <= i <-> EPOCH <= last_timestamp g')
  /\ (i < 2 ^ 63 <-> last_timestamp g' < EPOCH + 2 ^ 41).
Proof.
  intros Hg H. destruct (generate_id_step _ _ _ _ _ Hg H) as ((Hd & Hm & Hs) & _ & _ & -> & _).
  unfold key. rewrite assemble_arith by assumption.
  change (2 ^ 63) with 9223372036854775808. change (2 ^ 41) with 2199023255552.
  split; split; intros; nia.
Qed.

Lemma generate_id_sign_witness :
  inv (mkGen 1 1 0 (-1))
  /\ exists i g' clk',
       generate_id (mkGen 1 1 0 (-1)) [EPOCH - 1] = Returned i g' clk' /\ i < 0.
Proof.
  assert (Hg : inv (mkGen 1 1 0 (-1))) by (unfold inv; cbn; lia).
  split; [exact Hg|].
  exists (assemble (mkGen 1 1 0 (EPOCH - 1)) (EPOCH - 1) 0), (mkGen 1 1 0 (EPOCH - 1)), [].
  assert (H : generate_id (mkGen 1 1 0 (-1)) [EPOCH - 1]
              = Returned (assemble (mkGen 1 1 0 (EPOCH - 1)) (EPOCH - 1) 0)
                  (mkGen 1 1 0 (EPOCH - 1)) []) by reflexivity.
  split; [exact H|].
  destruct (generate_id_sign _ _ _ _ _ Hg H) as [[_ Hneg] _].
  destruct (Z.lt_ge_cases (assemble (mkGen 1 1 0 (EPOCH - 1)) (EPOCH - 1) 0) 0) as [Hl|Hl];
    [exact Hl|].
  exfalso. apply Hneg in Hl. cbn in Hl. lia.
Defined.

(** [_wait_next_millis] returns the first reading after [last_timestamp]
    and resumes the clock after it; it keeps polling exactly when every
    remaining reading is at or before [last_timestamp]. *)
Theorem wait_next_millis_first last clk :
  (forall t rest, _wait_next_millis last clk = Some (t, rest) <->
     exists skipped, clk = skipped ++ t :: rest
       /\ Forall (fun x => x <= last) skipped /\ last < t)
  /\ (_wait_next_millis last clk = None <-> Forall (fun x => x <= last) clk).
Proof.
  split.
  - intros t rest. split.
    + intros H. destruct (wait_next_millis_spec _ _ _ _ H) as [Hlt (sk & Hc & Hsk)].
      now exists sk.
    + intros (sk & -> & Hsk & Hlt). now apply wait_next_millis_skip.
  - induction clk as [|x clk IH]; cbn; [split; constructor|].
    destruct (Z.leb_spec x last).
    + rewrite IH. split; [now constructor | now inversion 1].
    + split; [discriminate | inversion 1; lia].
Qed.

(** Within one millisecond and below the sequence limit, the identifier of
    a call is the previous identifier plus one. *)
Theorem same_millis_consecutive g clk i1 g1 rest i2 g2 clk2 :
  inv g -> generate_id g clk = Returned i1 g1 (last_timestamp g1 :: rest) ->
  sequence g1 < 4095 ->
  generate_id g1 (last_timestamp g1 :: rest) = Returned i2 g2 clk2 ->
  i2 = i1 + 1 /\ last_timestamp g2 = last_timestamp g1.
Proof.
  intros Hg H1 Hs H2.
  destruct (generate_id_step _ _ _ _ _ Hg H1) as ((Hd & Hm & Hs1) & _ & _ & -> & _).
  cbn in H2. rewrite Z.ltb_irrefl, Z.eqb_refl, land_seq_succ in H2 by lia.
  destruct (Z.eqb_spec (sequence g1) 4095); [lia|].
  destruct (Z.eqb_spec (sequence g1 + 1) 0); [lia|].
  injection H2 as <- <- _. unfold key. cbn.
  rewrite !assemble_arith by (cbn; lia). cbn. split; lia.
Qed.

Lemma same_millis_consecutive_witness :
  inv (mkGen 1 1 0 (-1))
  /\ generate_id (mkGen 1 1 0 (-1)) [EPOCH; EPOCH]
     = Returned (assemble (mkGen 1 1 0 EPOCH) EPOCH 0) (mkGen 1 1 0 EPOCH) [EPOCH]
  /\ generate_id (mkGen 1 1 0 EPOCH) [EPOCH]
     = Returned (assemble (mkGen 1 1 1 EPOCH) EPOCH 1) (mkGen 1 1 1 EPOCH) []
  /\ assemble (mkGen 1 1 1 EPOCH) EPOCH 1 = assemble (mkGen 1 1 0 EPOCH) EPOCH 0 + 1.
Proof.
  assert (Hg : inv (mkGen 1 1 0 (-1))) by (unfold inv; cbn; lia).
  assert (H1 : generate_id (mkGen 1 1 0 (-1)) [EPOCH; EPOCH]
     = Returned (assemble (mkGen 1 1 0 EPOCH) EPOCH 0) (mkGen 1 1 0 EPOCH) [EPOCH])
    by reflexivity.
  assert (H2 : generate_id (mkGen 1 1 0 EPOCH) [EPOCH]
     = Returned (assemble (mkGen 1 1 1 EPOCH) EPOCH 1) (mkGen 1 1 1 EPOCH) [])
    by reflexivity.
  split; [exact Hg|]. split; [exact H1|]. split; [exact H2|].
  assert (Hs : sequence (mkGen 1 1 0 EPOCH) < 4095) by (cbn; lia).
  exact (proj1 (same_millis_consecutive _ _ _ _ [] _ _ [] Hg H1 Hs H2)).
Defined.


Lemma run_shape n g clk :
  inv g ->
  Forall (fun i => exists T s, 0 <= s <= 4095
            /\ i = T * 4194304 + (datacenter_id g * 131072 + machine_id g * 4096 + s))
    (run n g clk).
Proof.
  revert g clk. induction n as [|n IH]; intros g clk Hg; cbn; [constructor|].
  destruct (generate_id g clk) as [i g' clk'|e g' clk'|g'] eqn:Hgen; try constructor.
  - destruct (generate_id_step _ _ _ _ _ Hg Hgen) as ((Hd & Hm & Hs) & Hdc & Hmc & -> & _).
    exists (last_timestamp g' - EPOCH), (sequence g'). split; [exact Hs|].
    unfold key. rewrite assemble_arith by assumption. now rewrite Hdc, Hmc.
  - destruct (generate_id_step _ _ _ _ _ Hg Hgen) as (Hg' & Hdc & Hmc & _).
    rewrite <- Hdc, <- Hmc. now apply IH.
Qed.

Lemma StronglySorted_filter {A} (R : A -> A -> Prop) (f : A -> bool) l :
  StronglySorted R l -> StronglySorted R (filter f l).
Proof.
  induction 1 as [|a l Hs IH Hf]; cbn; [constructor|].
  destruct (f a); [|exact IH]. constructor; [exact IH|].
  rewrite Forall_forall in Hf |- *. intros x Hx. apply filter_In in Hx as [Hx _]. auto.
Qed.

Lemma strict_in_interval l a b :
  StronglySorted Z.lt l -> Forall (fun x => a <= x <= b) l ->
  (List.length l <= Z.to_nat (b - a + 1))%nat.
Proof.
  intros Hs. revert a. induction Hs as [|x l Hs IH Hx]; intros a Hin; cbn; [lia|].
  inversion Hin as [|? ? Hxa Hl]; subst.
  assert (Hl' : Forall (fun y => x + 1 <= y <= b) l).
  { rewrite Forall_forall in Hx, Hl |- *. intros y Hy. specialize (Hx y Hy). specialize (Hl y Hy). lia. }
  specialize (IH (x + 1) Hl'). lia.
Qed.

(** A constructed generator returns at most 4096 identifiers carrying the
    same millisecond (the same bits above 22). *)
Theorem at_most_4096_per_millis dc mc g n clk T :
  init dc mc = Ok g ->
  (List.length (filter (fun i => Z.eqb (Z.shiftr i 22) T) (run n g clk)) <= 4096)%nat.
Proof.
  intros Hi. destruct (init_spec _ _ _ Hi) as (Hg & _).
  pose proof Hg as (Hd & Hm & _).
  assert (Hss : StronglySorted Z.lt (run n g clk)).
  { apply Sorted_StronglySorted; [intros x y z; lia|].
    pose proof (run_sorted_from n g clk Hg) as Hs. now apply Sorted_inv in Hs as [Hs _]. }
  set (base := T * 4194304 + (datacenter_id g * 131072 + machine_id g * 4096)).
  replace 4096%nat with (Z.to_nat (base + 4095 - base + 1))
    by (replace (base + 4095 - base + 1) with 4096 by lia; reflexivity).
  apply strict_in_interval; [now apply StronglySorted_filter|].
  apply Forall_forall. intros i Hi'. apply filter_In in Hi' as [Hin HT].
  apply Z.eqb_eq in HT.
  pose proof (run_shape n g clk Hg) as Hsh. rewrite Forall_forall in Hsh.
  destruct (Hsh i Hin) as (T' & s & Hs & Hi_eq).
  destruct (decode_arith T' (datacenter_id g) (machine_id g) s Hd Hm Hs) as (H22 & _).
  rewrite <- Hi_eq in H22. rewrite HT in H22. subst T'. unfold base. lia.
Qed.


Lemma at_most_4096_per_millis_witness :
  init 1 1 = Ok (mkGen 1 1 0 (-1))
  /\ (List.length (filter (fun i => Z.eqb (Z.shiftr i 22) 0)
                    (run 3 (mkGen 1 1 0 (-1)) [EPOCH; EPOCH; EPOCH])) <= 4096)%nat.
Proof.
  split; [reflexivity|]. now apply (at_most_4096_per_millis 1 1).
Defined.

End SnowflakeExtras.

Module DictFacts.
Import Snowflake Py Dict DictExamples.

Lemma pystr_eqb_eq a b : pystr_eqb a b = true <-> a = b.
Proof.
  revert b. induction a as [|x a IH]; intros [|y b]; cbn; try (split; congruence).
  rewrite andb_true_iff, Z.eqb_eq, IH. split; [intros [-> ->]; reflexivity|].
  intros H; injection H as -> ->. split; reflexivity.
Qed.

Lemma mem_In x xs : mem x xs = true <-> In x xs.
Proof.
  induction xs as [|y xs IH]; cbn; [split; [discriminate | intros []]|].
  rewrite orb_true_iff, pystr_eqb_eq, IH. split; intros [H|H]; auto.
Qed.

Lemma fromkeys_acc_In x keys xs :
  In x (fromkeys_acc keys xs) <-> In x keys \/ In x xs.
Proof.
  revert keys. induction xs as [|y xs IH]; intros keys; cbn.
  - tauto.
  - rewrite IH. destruct (mem y keys) eqn:Hm.
    + apply mem_In in Hm. split; [tauto|]. intros [H|[<-|H]]; auto.
    + rewrite in_app_iff. cbn. tauto.
Qed.

Lemma dict_fromkeys_In x xs : In x (dict_fromkeys xs) <-> In x xs.
Proof. unfold dict_fromkeys. rewrite fromkeys_acc_In. cbn. tauto. Qed.

Lemma dict_fromkeys_nil xs : dict_fromkeys xs = [] -> xs = [].
Proof.
  destruct xs as [|x xs]; [reflexivity|]. intros H.
  assert (Hx : In x (dict_fromkeys (x :: xs))) by (apply dict_fromkeys_In; now left).
  rewrite H in Hx. destruct Hx.
Qed.

Lemma filter_nil_iff {A} (f : A -> bool) l :
  filter f l = [] <-> forall x, In x l -> f x = false.
Proof.
  induction l as [|y l IH]; cbn; [split; [intros _ x []|reflexivity]|].
  destruct (f y) eqn:Ey; split.
  - discriminate.
  - intros H. rewrite (H y (or_introl eq_refl)) in Ey. discriminate.
  - intros H x [<-|Hx]; [exact Ey|]. now apply IH.
  - intros H. apply IH. intros x Hx. apply H. now right.
Qed.

(** The two branches of [upsert_dict_option] once the type is found. *)
Lemma upsert_existing_path e d req g clk dt :
  valid_upsert req = true ->
  find_type_row e (type_rows d) (up_dict_type req) = Some dt ->
  filter (fun o => (dict_type_id o =? tr_id dt) && collate e (label o) (up_label req))
         (option_rows d) <> [] ->
  upsert_dict_option e d req g clk = UpsertRaised AttributeError d g clk.
Proof.
  intros Hv Hf Hne. unfold upsert_dict_option. rewrite Hv, Hf. cbn [negb].
  destruct (filter _ _); [contradiction|reflexivity].
Qed.

Lemma upsert_create_path e d req g clk dt :
  valid_upsert req = true ->
  find_type_row e (type_rows d) (up_dict_type req) = Some dt ->
  filter (fun o => (dict_type_id o =? tr_id dt) && collate e (label o) (up_label req))
         (option_rows d) = [] ->
  upsert_dict_option e d req g clk
  = match generate_id g clk with
    | Spinning g' => UpsertSpinning g'
    | Raised err g' rest => UpsertRaised (GeneratorError err) d g' rest
    | Returned gid g' rest =>
        match dict_fromkeys (py_iter (up_value req)) with
        | [] => UpsertCreated d [] gid g' rest
        | _ :: _ => UpsertRaised TypeError d g' rest
        end
    end.
Proof.
  intros Hv Hf Hn. unfold upsert_dict_option. rewrite Hv, Hf, Hn. reflexivity.
Qed.

Lemma exact_env_first_ok : first_ok exact_env.
Proof.
  intros l. split; destruct l as [|x l]; cbn; try discriminate; auto.
  intros r H. injection H as ->. now left.
Qed.

Lemma first_ok_nil e : first_ok e -> first_type e [] = None.
Proof.
  intros He. destruct (first_type e []) as [r|] eqn:E; [|reflexivity].
  destruct (proj2 (He []) r E).
Qed.

Lemma first_ok_none e l : first_ok e -> first_type e l = None <-> l = [].
Proof.
  intros He. split; [apply He|]. intros ->. now apply first_ok_nil.
Qed.

Lemma insert_newest_perm r l : Permutation (insert_newest r l) (r :: l).
Proof.
  induction l as [|x l IH]; cbn; [reflexivity|].
  destruct (Z.ltb (tr_created_at x) (tr_created_at r)); [reflexivity|].
  transitivity (x :: r :: l); [now constructor | apply perm_swap].
Qed.

Lemma insert_newest_sorted r l :
  Sorted (fun a b => tr_created_at b <= tr_created_at a) l ->
  Sorted (fun a b => tr_created_at b <= tr_created_at a) (insert_newest r l).
Proof.
  induction l as [|x l IH]; intros Hs; cbn; [repeat constructor|].
  destruct (Z.ltb (tr_created_at x) (tr_created_at r)) eqn:E.
  - apply Z.ltb_lt in E. constructor; [exact Hs|]. constructor. lia.
  - apply Z.ltb_ge in E. apply Sorted_inv in Hs as [Hs Hd].
    constructor; [now apply IH|].
    destruct l as [|y l]; cbn; [constructor; lia|].
    inversion Hd as [|? ? Hxy]; subst.
    destruct (Z.ltb (tr_created_at y) (tr_created_at r)); constructor; lia.
Qed.

Lemma exact_env_order_ok : order_ok exact_env.
Proof.
  intros l. cbn. induction l as [|x l [IHp IHs]]; cbn; [split; constructor|].
  split.
  - rewrite insert_newest_perm. now constructor.
  - now apply insert_newest_sorted.
Qed.

Lemma filter_map_comm {A} (P : A -> bool) (f : A -> A) l :
  (forall x, In x l -> P (f x) = P x) -> filter P (map f l) = map f (filter P l).
Proof.
  induction l as [|x l IH]; intros H; cbn; [reflexivity|].
  rewrite (H x (or_introl eq_refl)).
  rewrite IH by (intros y Hy; apply H; now right).
  destruct (P x); reflexivity.
Qed.

Lemma filter_length_split {A} (f : A -> bool) (l : list A) :
  (List.length (filter f l) + List.length (filter (fun x => negb (f x)) l) = List.length l)%nat.
Proof.
  induction l as [|x l IH]; cbn; [reflexivity|].
  destruct (f x); cbn; lia.
Qed.

Lemma NoDup_map_same {A B} (f : A -> B) l x y :
  NoDup (map f l) -> In x l -> In y l -> f x = f y -> x = y.
Proof.
  induction l as [|z l IH]; intros Hn Hx Hy Hf; [destruct Hx|].
  cbn in Hn. apply NoDup_cons_iff in Hn as [Hz Hn].
  destruct Hx as [<-|Hx], Hy as [<-|Hy]; [reflexivity| | |now apply IH].
  - exfalso. apply Hz. rewrite Hf. now apply in_map.
  - exfalso. apply Hz. rewrite <- Hf. now apply in_map.
Qed.

End DictFacts.

(** ** Claims on the dictionary options *)
Module DictClaims.
Import Snowflake Py Dict DictExamples DictFacts.

(** Claim C1: an upsert whose (type, label) already has a row does not
    reconcile anything: the lookup of the group by
    [DictOption.option_group_id] raises [AttributeError], the store and the
    global generator are unchanged (the same holds for the PUT endpoint,
    which has the same body). *)
Theorem upsert_existing_raises e d req g clk dt o :
  valid_upsert req = true ->
  find_type_row e (type_rows d) (up_dict_type req) = Some dt ->
  In o (option_rows d) -> dict_type_id o = tr_id dt -> collate e (label o) (up_label req) = true ->
  upsert_dict_option e d req g clk = UpsertRaised AttributeError d g clk
  /\ upsert_dict_option_by_type_label e d req g clk = UpsertRaised AttributeError d g clk.
Proof.
  intros Hv Hf Ho Ht Hl.
  assert (Hne : filter (fun o => (dict_type_id o =? tr_id dt) && collate e (label o) (up_label req))
                       (option_rows d) <> []).
  { intros H. apply filter_nil_iff with (x := o) in H; [|exact Ho].
    rewrite Ht, Z.eqb_refl, Hl in H. discriminate. }
  split; apply (upsert_existing_path _ _ _ _ _ dt); assumption.
Qed.

Lemma upsert_existing_raises_witness :
  upsert_dict_option exact_env imported_db (upsert_req "rate" (VList [of_ascii "N"; of_ascii "X"]))
    gen11 clk2
  = UpsertRaised AttributeError imported_db gen11 clk2.
Proof.
  apply (upsert_existing_raises exact_env imported_db _ gen11 clk2 freight rate_m);
    [reflexivity | reflexivity | left; reflexivity | reflexivity | reflexivity].
Defined.

(** Claim C6: on the create path (the type exists, no row has the label)
    with at least one value, [generate_id] runs and then the first
    [DictOption(option_group_id=...)] raises [TypeError]: no group is
    created, the store is unchanged, only the generator has advanced. *)
Theorem upsert_create_raises e d req g clk dt gid g' rest :
  valid_upsert req = true ->
  find_type_row e (type_rows d) (up_dict_type req) = Some dt ->
  (forall o, In o (option_rows d) -> dict_type_id o = tr_id dt ->
             collate e (label o) (up_label req) = false) ->
  py_iter (up_value req) <> [] ->
  generate_id g clk = Returned gid g' rest ->
  upsert_dict_option e d req g clk = UpsertRaised TypeError d g' rest
  /\ upsert_dict_option_by_type_label e d req g clk = UpsertRaised TypeError d g' rest.
Proof.
  intros Hv Hf Hno Hne Hg.
  assert (Hn : filter (fun o => (dict_type_id o =? tr_id dt) && collate e (label o) (up_label req))
                      (option_rows d) = []).
  { apply filter_nil_iff. intros o Ho.
    destruct (dict_type_id o =? tr_id dt) eqn:Et; [|reflexivity].
    apply Z.eqb_eq in Et. rewrite (Hno o Ho Et). reflexivity. }
  assert (H : upsert_dict_option e d req g clk = UpsertRaised TypeError d g' rest).
  { rewrite (upsert_create_path _ _ _ _ _ dt Hv Hf Hn), Hg.
    destruct (dict_fromkeys (py_iter (up_value req))) eqn:Ed; [|reflexivity].
    apply dict_fromkeys_nil in Ed. contradiction. }
  split; exact H.
Qed.

Lemma upsert_create_raises_witness :
  generate_id gen11 clk2 = Returned 21106688 (mkGen 1 1 0 (EPOCH + 5)) [EPOCH + 6]
  /\ upsert_dict_option exact_env no_options_db
       (upsert_req "rate" (VList [of_ascii "M"; of_ascii "N"; of_ascii "M"])) gen11 clk2
     = UpsertRaised TypeError no_options_db (mkGen 1 1 0 (EPOCH + 5)) [EPOCH + 6].
Proof.
  assert (Hg : generate_id gen11 clk2 = Returned 21106688 (mkGen 1 1 0 (EPOCH + 5)) [EPOCH + 6])
    by reflexivity.
  split; [exact Hg|].
  apply (upsert_create_raises exact_env no_options_db _ gen11 clk2 freight 21106688
           (mkGen 1 1 0 (EPOCH + 5)) [EPOCH + 6]);
    [reflexivity | reflexivity | intros o [] | discriminate | exact Hg].
Defined.

(** Claim C7: with a non-empty value on an existing type, no call of the
    upsert succeeds and none changes the store, so two successive
    identical calls both fail and leave the store as it was; on an
    existing (type, label) both raise [AttributeError]. *)
Theorem upsert_twice_fails e d req g clk dt :
  valid_upsert req = true ->
  find_type_row e (type_rows d) (up_dict_type req) = Some dt ->
  py_iter (up_value req) <> [] ->
  match upsert_dict_option e d req g clk with
  | UpsertRaised _ d1 g1 r1 =>
      d1 = d
      /\ match upsert_dict_option e d1 req g1 r1 with
         | UpsertRaised _ d2 _ _ => d2 = d
         | UpsertCreated _ _ _ _ _ => False
         | _ => True
         end
  | UpsertCreated _ _ _ _ _ => False
  | _ => True
  end.
Proof.
  intros Hv Hf Hne.
  assert (Hone : forall g0 clk0,
    match upsert_dict_option e d req g0 clk0 with
    | UpsertRaised _ d' _ _ => d' = d
    | UpsertCreated _ _ _ _ _ => False
    | _ => True
    end).
  { intros g0 clk0.
    destruct (filter (fun o => (dict_type_id o =? tr_id dt) && collate e (label o) (up_label req))
                     (option_rows d)) eqn:Hn.
    - rewrite (upsert_create_path _ _ _ g0 clk0 dt Hv Hf Hn).
      destruct (generate_id g0 clk0); [|reflexivity|exact I].
      destruct (dict_fromkeys (py_iter (up_value req))) eqn:Ed; [|reflexivity].
      apply dict_fromkeys_nil in Ed. contradiction.
    - rewrite (upsert_existing_path _ _ _ g0 clk0 dt Hv Hf) by (rewrite Hn; discriminate).
      reflexivity. }
  pose proof (Hone g clk) as H1.
  destruct (upsert_dict_option e d req g clk) as [| |ex d1 g1 r1|]; try exact H1.
  subst d1. split; [reflexivity|]. apply Hone.
Qed.

Lemma upsert_twice_fails_witness :
  upsert_dict_option exact_env imported_db (upsert_req "rate" (VList [of_ascii "N"; of_ascii "X"]))
    gen11 clk2 = UpsertRaised AttributeError imported_db gen11 clk2
  /\ match upsert_dict_option exact_env imported_db
             (upsert_req "rate" (VList [of_ascii "N"; of_ascii "X"])) gen11 clk2 with
     | UpsertRaised _ d1 g1 r1 =>
         d1 = imported_db
         /\ match upsert_dict_option exact_env d1
                    (upsert_req "rate" (VList [of_ascii "N"; of_ascii "X"])) g1 r1 with
            | UpsertRaised _ d2 _ _ => d2 = imported_db
            | UpsertCreated _ _ _ _ _ => False
            | _ => True
            end
     | UpsertCreated _ _ _ _ _ => False
     | _ => True
     end.
Proof.
  split; [reflexivity|].
  apply (upsert_twice_fails exact_env imported_db _ gen11 clk2 freight);
    [reflexivity | reflexivity | discriminate].
Defined.

(** Claim C8: a listing with valid paging raises [AttributeError] exactly
    when some option row passes the join and the filters (the grouping
    reads [do.option_group_id] on the first row); otherwise it returns
    [total = 0] and no item. It never returns a page of groups. *)
Theorem get_dict_options_raises e d q :
  1 <= page q -> 1 <= page_size q <= 100 ->
  (get_dict_options e d q = ListRaised AttributeError <-> query_rows e d q <> [])
  /\ (query_rows e d q = [] -> get_dict_options e d q = Listed 0 [])
  /\ forall total items, get_dict_options e d q = Listed total items -> total = 0 /\ items = [].
Proof.
  intros Hp Hs.
  assert (Hv : (page q <? 1) || (page_size q <? 1) || (page_size q >? 100) = false).
  { apply orb_false_iff. split; [apply orb_false_iff; split|]; [apply Z.ltb_ge; lia | apply Z.ltb_ge; lia|].
    rewrite Z.gtb_ltb. apply Z.ltb_ge. lia. }
  unfold get_dict_options. rewrite Hv.
  destruct (query_rows e d q) as [|o rows].
  - split; [split; [discriminate | intros H; exfalso; now apply H]|].
    split; [intros _; destruct (Z.to_nat ((page q - 1) * page_size q)), (Z.to_nat (page_size q));
            reflexivity|].
    intros total items H. injection H as <- <-.
    destruct (Z.to_nat ((page q - 1) * page_size q)), (Z.to_nat (page_size q)); split; reflexivity.
  - split; [split; [discriminate | reflexivity]|].
    split; [discriminate|]. intros total items H. discriminate.
Qed.

Lemma get_dict_options_raises_witness :
  get_dict_options exact_env three_db (mkQuery None None 2 1) = ListRaised AttributeError.
Proof.
  apply (proj1 (get_dict_options_raises exact_env three_db (mkQuery None None 2 1)
                  ltac:(cbn; lia) ltac:(cbn; lia))).
  discriminate.
Defined.

(** Claim C9: a bare string is iterated as its characters (the values the
    creation loop would visit are the distinct characters of the string),
    but the first [DictOption(option_group_id=...)] raises [TypeError]: no
    row is created for a non-empty string. *)
Theorem upsert_string_raises e d req s g clk dt gid g' rest :
  up_value req = VStr s ->
  valid_upsert req = true ->
  find_type_row e (type_rows d) (up_dict_type req) = Some dt ->
  (forall o, In o (option_rows d) -> dict_type_id o = tr_id dt ->
             collate e (label o) (up_label req) = false) ->
  s <> [] ->
  generate_id g clk = Returned gid g' rest ->
  (forall x, In x (dict_fromkeys (py_iter (up_value req))) <-> exists c, x = [c] /\ In c s)
  /\ upsert_dict_option e d req g clk = UpsertRaised TypeError d g' rest.
Proof.
  intros Hs Hv Hf Hno Hne Hg.
  split.
  { intros x. rewrite dict_fromkeys_In, Hs. cbn [py_iter]. rewrite in_map_iff.
    split; intros (c & H1 & H2); exists c; split; auto. }
  assert (Hn : filter (fun o => (dict_type_id o =? tr_id dt) && collate e (label o) (up_label req))
                      (option_rows d) = []).
  { apply filter_nil_iff. intros o Ho.
    destruct (dict_type_id o =? tr_id dt) eqn:Et; [|reflexivity].
    apply Z.eqb_eq in Et. rewrite (Hno o Ho Et). reflexivity. }
  rewrite (upsert_create_path _ _ _ _ _ dt Hv Hf Hn), Hg.
  destruct (dict_fromkeys (py_iter (up_value req))) eqn:Ed; [|reflexivity].
  apply dict_fromkeys_nil in Ed. rewrite Hs in Ed. cbn in Ed.
  destruct s; [contradiction | discriminate].
Qed.

Lemma upsert_string_raises_witness :
  dict_fromkeys (py_iter (VStr (of_ascii "AB"))) = [of_ascii "A"; of_ascii "B"]
  /\ dict_fromkeys (py_iter (VStr (of_ascii "AA"))) = [of_ascii "A"]
  /\ upsert_dict_option exact_env no_options_db (upsert_req "rate" (VStr (of_ascii "AB"))) gen11 clk2
     = UpsertRaised TypeError no_options_db (mkGen 1 1 0 (EPOCH + 5)) [EPOCH + 6].
Proof.
  split; [reflexivity|]. split; [reflexivity|].
  apply (upsert_string_raises exact_env no_options_db _ (of_ascii "AB") gen11 clk2 freight 21106688
           (mkGen 1 1 0 (EPOCH + 5)) [EPOCH + 6]);
    [reflexivity | reflexivity | reflexivity | intros o [] | discriminate | reflexivity].
Defined.

(** Claim C10: whatever [option_id] is, a number or not, the delete by
    option id raises [AttributeError] on [DictOption.option_group_id]
    before [int(option_id)] is evaluated: never [ValueError], never
    [NotFoundException], and no row is deleted. *)
Theorem delete_by_id_raises d option_id :
  delete_dict_option_by_id d option_id = DeleteRaised AttributeError.
Proof. reflexivity. Qed.

End DictClaims.

(** ** Further properties of the dictionary endpoints *)
Module DictExtras.
Import Snowflake Py Dict DictExamples DictFacts.

Lemma map_update_twice rows i (r' : DictTypeRow) :
  tr_id r' = i ->
  map (fun x => if tr_id x =? i then r' else x)
      (map (fun x => if tr_id x =? i then r' else x) rows)
  = map (fun x => if tr_id x =? i then r' else x) rows.
Proof.
  intros Hi. rewrite map_map. apply map_ext. intros x.
  destruct (tr_id x =? i) eqn:E; [|now rewrite E].
  rewrite Hi, Z.eqb_refl. reflexivity.
Qed.

(** [upsert_dict_type] on a key held by exactly one row updates that row
    in place: it keeps its id, key and creation time and takes the
    request's [name] and the truth value of its [status]; no other row
    changes, no row is added, the options are untouched, and sending the
    same request again changes nothing more. *)
Theorem upsert_dict_type_update e d c r :
  first_ok e ->
  NoDup (map tr_id (type_rows d)) ->
  valid_type_create c = true ->
  filter (fun x => collate e (tr_type x) (c_type c)) (type_rows d) = [r] ->
  let r' := mkTypeRow (tr_id r) (c_name c) (tr_type r) (bool_of_int (c_status c))
              (tr_created_at r) in
  exists d',
    upsert_dict_type e d c = TypeUpserted d' r'
    /\ map tr_id (type_rows d') = map tr_id (type_rows d)
    /\ (forall x, In x (type_rows d') <-> (In x (type_rows d) /\ x <> r) \/ x = r')
    /\ option_rows d' = option_rows d
    /\ upsert_dict_type e d' c = TypeUpserted d' r'.
Proof.
  intros He Hnd Hv Hm r'.
  assert (Hf : find_type_row e (type_rows d) (c_type c) = Some r).
  { unfold find_type_row. rewrite Hm.
    destruct (first_type e [r]) as [x|] eqn:E.
    - apply He in E. destruct E as [<-|[]]. reflexivity.
    - apply He in E. discriminate. }
  assert (Hin : In r (type_rows d)).
  { assert (H : In r (filter (fun x => collate e (tr_type x) (c_type c)) (type_rows d)))
      by (rewrite Hm; now left).
    apply filter_In in H. apply H. }
  set (upd := fun x => if tr_id x =? tr_id r then r' else x).
  assert (Hsame : forall x, In x (type_rows d) -> tr_id x = tr_id r -> x = r).
  { intros x Hx Hi. exact (NoDup_map_same tr_id _ x r Hnd Hx Hin Hi). }
  assert (Hm' : filter (fun x => collate e (tr_type x) (c_type c)) (map upd (type_rows d)) = [r']).
  { rewrite filter_map_comm, Hm; [cbn [map]; unfold upd; now rewrite Z.eqb_refl|].
    intros x Hx. unfold upd. destruct (tr_id x =? tr_id r) eqn:E; [|reflexivity].
    apply Z.eqb_eq in E. rewrite (Hsame x Hx E). reflexivity. }
  assert (Hf' : find_type_row e (map upd (type_rows d)) (c_type c) = Some r').
  { unfold find_type_row. rewrite Hm'.
    destruct (first_type e [r']) as [x|] eqn:E.
    - apply He in E. destruct E as [<-|[]]. reflexivity.
    - apply He in E. discriminate. }
  exists (mkStore (map upd (type_rows d)) (option_rows d)).
  split; [unfold upsert_dict_type; rewrite Hv, Hf; reflexivity|].
  cbn [type_rows option_rows].
  split.
  { rewrite map_map. apply map_ext. intros x. unfold upd.
    destruct (tr_id x =? tr_id r) eqn:E; [|reflexivity].
    apply Z.eqb_eq in E. cbn. congruence. }
  split.
  { intros x. rewrite in_map_iff. split.
    - intros (y & <- & Hy). unfold upd. destruct (tr_id y =? tr_id r) eqn:E.
      + now right.
      + left. split; [exact Hy|]. intros ->. rewrite Z.eqb_refl in E. discriminate.
    - intros [[Hx Hn] | Hx].
      + exists x. split; [|exact Hx]. unfold upd.
        destruct (tr_id x =? tr_id r) eqn:E; [|reflexivity].
        apply Z.eqb_eq in E. exfalso. exact (Hn (Hsame x Hx E)).
      + subst x. exists r. split; [|exact Hin]. unfold upd. now rewrite Z.eqb_refl. }
  split; [reflexivity|].
  unfold upsert_dict_type. rewrite Hv. cbn [negb type_rows option_rows]. rewrite Hf'.
  subst r'. cbn [tr_id tr_type tr_created_at]. unfold upd.
  rewrite (map_update_twice (type_rows d) (tr_id r)); reflexivity.
Qed.

Lemma upsert_dict_type_update_witness :
  exists d',
    upsert_dict_type exact_env types_db retitle
    = TypeUpserted d' (mkTypeRow 100 (of_ascii "Freight codes") (of_ascii "freight_code") false 1)
    /\ upsert_dict_type exact_env d' retitle
       = TypeUpserted d' (mkTypeRow 100 (of_ascii "Freight codes") (of_ascii "freight_code") false 1).
Proof.
  assert (Hnd : NoDup (map tr_id (type_rows types_db))).
  { cbn. constructor; [intros [H|[]]; discriminate|].
    constructor; [intros []|constructor]. }
  destruct (upsert_dict_type_update exact_env types_db retitle freight
              exact_env_first_ok Hnd eq_refl eq_refl) as (d' & Hu & _ & _ & _ & Hu2).
  exists d'. split; [exact Hu | exact Hu2].
Defined.

Lemma Sorted_skipn {A} (R : A -> A -> Prop) n (l : list A) :
  Sorted R l -> Sorted R (skipn n l).
Proof.
  revert l. induction n as [|n IH]; intros l H; [exact H|].
  destruct l as [|x l]; [constructor|]. cbn. apply IH. now apply Sorted_inv in H.
Qed.

(** [get_dict_types] with a valid query returns as [total] the number of
    rows matching the type and status filters, and as page the slice of
    those rows in newest-first order that starts at position
    [(page - 1) * page_size] and holds at most [page_size] rows. *)
Theorem get_dict_types_page e d q total items :
  order_ok e ->
  get_dict_types e d q = Some (total, items) ->
  1 <= tq_page q /\ 1 <= tq_page_size q <= 100
  /\ total = Z.of_nat (List.length (filter (type_query_matches e q) (type_rows d)))
  /\ exists L,
       Permutation L (filter (type_query_matches e q) (type_rows d))
       /\ Sorted (fun a b => tr_created_at b <= tr_created_at a) L
       /\ items = firstn (Z.to_nat (tq_page_size q))
                    (skipn (Z.to_nat ((tq_page q - 1) * tq_page_size q)) L).
Proof.
  intros He. unfold get_dict_types. intros H.
  destruct (valid_type_query q) eqn:Hv; cbn [negb] in H; [|discriminate].
  injection H as <- <-.
  unfold valid_type_query in Hv.
  repeat (apply andb_prop in Hv as [Hv ?]). rewrite !Z.leb_le in *.
  split; [assumption|]. split; [split; assumption|]. split; [reflexivity|].
  set (m := filter (type_query_matches e q) (type_rows d)).
  exists (newest_first e m). destruct (He m) as [Hp Hs].
  split; [exact Hp|]. split; [exact Hs|]. reflexivity.
Qed.

Lemma get_dict_types_page_witness :
  get_dict_types exact_env types_db (mkTypeQuery None None 2 1) = Some (2, [freight])
  /\ Sorted (fun a b => tr_created_at b <= tr_created_at a) [goods42; freight].
Proof.
  assert (E : get_dict_types exact_env types_db (mkTypeQuery None None 2 1) = Some (2, [freight]))
    by reflexivity.
  split; [exact E|].
  destruct (get_dict_types_page exact_env types_db _ _ _ exact_env_order_ok E)
    as (_ & _ & _ & L & Hp & Hs & _).
  constructor; [repeat constructor|]. constructor. cbn. lia.
Defined.

(** [delete_dict_type] raises [NotFoundException] exactly when no type row
    matches the identifier: an identifier that [int()] accepts (which
    includes surrounding whitespace, a sign, underscores between digits and
    non-ASCII decimal digits) is matched against ids only, even when some
    type key is spelled that way; any other identifier is compared with
    the type keys under the collation. *)
Theorem delete_dict_type_not_found e rt d identifier :
  first_ok e ->
  delete_dict_type e rt d identifier = TypeDeleteRaised NotFoundException
  <-> ~ exists r, In r (type_rows d) /\ targets e rt identifier r.
Proof.
  intros He. unfold delete_dict_type, targets, find_type_row.
  destruct (py_int rt identifier) as [n|].
  - set (l := filter (fun r => tr_id r =? n) (type_rows d)).
    destruct (first_type e l) as [dt|] eqn:Hf.
    + split; [discriminate|]. intros Hn. exfalso. apply Hn.
      apply He in Hf. apply filter_In in Hf as [H1 H2].
      exists dt. split; [exact H1 | now apply Z.eqb_eq].
    + split; [intros _|reflexivity]. intros (r & Hr & Hi).
      apply He in Hf. assert (Hl : In r l) by (apply filter_In; split; [exact Hr | now apply Z.eqb_eq]).
      rewrite Hf in Hl. destruct Hl.
  - set (l := filter (fun r => collate e (tr_type r) identifier) (type_rows d)).
    destruct (first_type e l) as [dt|] eqn:Hf.
    + split; [discriminate|]. intros Hn. exfalso. apply Hn.
      apply He in Hf. apply filter_In in Hf as [H1 H2]. exists dt. split; assumption.
    + split; [intros _|reflexivity]. intros (r & Hr & Hi).
      apply He in Hf. assert (Hl : In r l) by (apply filter_In; split; assumption).
      rewrite Hf in Hl. destruct Hl.
Qed.

Lemma delete_dict_type_not_found_witness :
  In goods42 (type_rows types_db) /\ tr_type goods42 = of_ascii "42"
  /\ py_int rt_sample fw42 = Some 42
  /\ delete_dict_type exact_env rt_sample types_db fw42 = TypeDeleteRaised NotFoundException.
Proof.
  split; [right; left; reflexivity|]. split; [reflexivity|]. split; [reflexivity|].
  apply (delete_dict_type_not_found exact_env rt_sample types_db fw42 exact_env_first_ok).
  intros (r & Hr & Ht). unfold targets in Ht. vm_compute in Ht.
  destruct Hr as [<-|[<-|[]]]; discriminate.
Defined.

(** A successful [delete_dict_type] removes the targeted row and every row
    sharing its id, removes by cascade exactly the options referencing
    that id, keeps everything else, and reports as count the number of
    options removed; afterwards any identifier that [int()] reads as that
    id is not found. *)
Theorem delete_dict_type_cascade e rt d identifier d' dt k :
  first_ok e ->
  delete_dict_type e rt d identifier = TypeDeleted d' dt k ->
  In dt (type_rows d) /\ targets e rt identifier dt
  /\ (forall r, In r (type_rows d') <-> In r (type_rows d) /\ tr_id r <> tr_id dt)
  /\ (forall o, In o (option_rows d') <-> In o (option_rows d) /\ dict_type_id o <> tr_id dt)
  /\ (k + List.length (option_rows d') = List.length (option_rows d))%nat
  /\ (forall s, py_int rt s = Some (tr_id dt) ->
        delete_dict_type e rt d' s = TypeDeleteRaised NotFoundException).
Proof.
  intros He H.
  assert (Hsel : In dt (type_rows d) /\ targets e rt identifier dt).
  { unfold delete_dict_type, targets, find_type_row in *.
    destruct (py_int rt identifier) as [n|].
    - destruct (first_type e (filter (fun r => tr_id r =? n) (type_rows d))) as [x|] eqn:Hf;
        [|discriminate].
      injection H as _ <- _. apply He, filter_In in Hf as [H1 H2].
      split; [exact H1 | now apply Z.eqb_eq].
    - destruct (first_type e (filter (fun r => collate e (tr_type r) identifier) (type_rows d)))
        as [x|] eqn:Hf; [|discriminate].
      injection H as _ <- _. apply He, filter_In in Hf as [H1 H2]. split; assumption. }
  assert (Hd : d' = mkStore (filter (fun r => negb (tr_id r =? tr_id dt)) (type_rows d))
                            (filter (fun o => negb (dict_type_id o =? tr_id dt)) (option_rows d))
               /\ k = List.length (filter (fun o => dict_type_id o =? tr_id dt) (option_rows d))).
  { unfold delete_dict_type in H.
    destruct (match py_int rt identifier with
              | Some type_id => first_type e (filter (fun r => tr_id r =? type_id) (type_rows d))
              | None => find_type_row e (type_rows d) identifier
              end); [|discriminate].
    injection H as <- <- <-. split; reflexivity. }
  destruct Hd as [-> ->]. cbn [type_rows option_rows].
  split; [exact (proj1 Hsel)|]. split; [exact (proj2 Hsel)|].
  split.
  { intros r. rewrite filter_In, Bool.negb_true_iff, Z.eqb_neq. reflexivity. }
  split.
  { intros o. rewrite filter_In, Bool.negb_true_iff, Z.eqb_neq. reflexivity. }
  split.
  { apply filter_length_split. }
  intros s Hs. unfold delete_dict_type. rewrite Hs. cbn [type_rows].
  assert (Hnil : filter (fun r => tr_id r =? tr_id dt)
                   (filter (fun r => negb (tr_id r =? tr_id dt)) (type_rows d)) = []).
  { apply filter_nil_iff. intros r Hr. apply filter_In in Hr as [_ Hr].
    destruct (tr_id r =? tr_id dt); [discriminate|reflexivity]. }
  rewrite Hnil, (first_ok_nil _ He). reflexivity.
Qed.

Lemma delete_dict_type_cascade_witness :
  delete_dict_type exact_env rt_sample types_db (of_ascii "freight_code")
  = TypeDeleted (mkStore [goods42] [mkOption 1001 101 (of_ascii "g") (of_ascii "x") true 3]) freight 1
  /\ delete_dict_type exact_env rt_sample
       (mkStore [goods42] [mkOption 1001 101 (of_ascii "g") (of_ascii "x") true 3]) (12288 :: fw100)
     = TypeDeleteRaised NotFoundException.
Proof.
  assert (E : delete_dict_type exact_env rt_sample types_db (of_ascii "freight_code")
              = TypeDeleted (mkStore [goods42] [mkOption 1001 101 (of_ascii "g") (of_ascii "x") true 3])
                            freight 1) by reflexivity.
  split; [exact E|].
  destruct (delete_dict_type_cascade _ _ _ _ _ _ _ exact_env_first_ok E)
    as (_ & _ & _ & _ & _ & Hgone).
  apply Hgone. reflexivity.
Defined.



End DictExtras.


